(** * LitTouch: the handlers of [app.py], embedded in Rocq

    [app.py] is a Flask / Flask-SocketIO server with three stateful parts:

    - the chess rooms: the process-wide dict [games] and the socket handlers
      [on_join_game], [on_make_move], [on_reset];
    - the quiz picker [api_quiz_start];
    - the leaderboard table with [api_quiz_submit] and [api_leaderboard].

    Each handler becomes a function from the state it reads (and the payload
    it receives) to the state it leaves and what it sends.  The chess rules
    come from python-chess, which is not part of the repository: they are an
    interface ([Chess]) the handlers are written against. *)

From stdpp Require Import gmap strings list fin_maps sorting pretty.
From Stdlib Require Import ZArith Lia.

Open Scope string_scope.

(** ** Python values

    Socket and HTTP payloads are decoded JSON.  [pyval] is the decoded form;
    JSON numbers with a fractional part are left out. *)

#[warnings="-register-all"]
Inductive pyval : Type :=
| PNone
| PBool (b : bool)
| PInt (z : Z)
| PStr (s : string)
| PList (l : list pyval)
| PDict (d : list (string * pyval)).

(** Truth value of an object, as [or], [not] and [if] test it. *)
Definition truthy (v : pyval) : bool :=
  match v with
  | PNone => false
  | PBool b => b
  | PInt z => negb (z =? 0)%Z
  | PStr s => match s with EmptyString => false | String _ _ => true end
  | PList l => match l with [] => false | _ :: _ => true end
  | PDict d => match d with [] => false | _ :: _ => true end
  end.

(** [a or b] *)
Definition py_or (a b : pyval) : pyval := if truthy a then a else b.

(** [d.get(k)] and [d.get(k, dflt)] on a payload dict. *)
Definition py_get (d : gmap string pyval) (k : string) : pyval :=
  default PNone (d !! k).

Definition py_get_default (d : gmap string pyval) (k : string) (dflt : pyval)
  : pyval :=
  default dflt (d !! k).

(** Exceptions a handler can let escape. *)
Inductive exn : Type :=
| TypeError
| ValueError
| OverflowError
| IntegrityError
| InterfaceError.

Inductive res (A : Type) : Type :=
| Done (a : A)
| Raise (e : exn).
Arguments Done {A} a.
Arguments Raise {A} e.

Definition res_bind {A B} (r : res A) (k : A -> res B) : res B :=
  match r with
  | Done a => k a
  | Raise e => Raise e
  end.

Notation "'try!' x <- r ; k" := (res_bind r (fun x => k))
  (at level 10, x name, r at level 100, k at level 200,
   format "'try!'  x  <-  r ;  '/' k").

(** Keys of a Python dict.  [True == 1] and [False == 0] hash alike, so a
    bool and the int it equals are one key.  Lists and dicts cannot be
    hashed: using one as a key raises [TypeError]. *)
Inductive pykey : Type :=
| KNone
| KInt (z : Z)
| KStr (s : string).

#[global] Instance pykey_eq_dec : EqDecision pykey.
Proof. solve_decision. Defined.

Definition pykey_enc (k : pykey) : option (Z + string) :=
  match k with
  | KNone => None
  | KInt z => Some (inl z)
  | KStr s => Some (inr s)
  end.

Definition pykey_dec (x : option (Z + string)) : pykey :=
  match x with
  | None => KNone
  | Some (inl z) => KInt z
  | Some (inr s) => KStr s
  end.

#[global] Instance pykey_countable : Countable pykey.
Proof.
  apply (inj_countable' pykey_enc pykey_dec).
  intros []; reflexivity.
Defined.

Definition py_hash (v : pyval) : res pykey :=
  match v with
  | PNone => Done KNone
  | PBool b => Done (KInt (if b then 1 else 0))
  | PInt z => Done (KInt z)
  | PStr s => Done (KStr s)
  | PList _ | PDict _ => Raise TypeError
  end.

(** ** The chess library, as the handlers use it

    [chess.Board()], [chess.Move.from_uci], [move in board.legal_moves],
    [board.push] and [board.fen].  [from_uci] is given on strings; [None]
    stands for the exception it raises on a string it cannot parse. *)

Class Chess : Type := {
  Board : Type;
  Move : Type;
  new_board : Board;
  from_uci : string -> option Move;
  is_legal : Board -> Move -> bool;
  push : Board -> Move -> Board;
  board_fen : Board -> string
}.

(** What a handler does to the outside: [join_room(room)] for the calling
    connection, and [emit(event, payload, room=dest)] ([to=] is the same
    argument under another name). *)
Inductive effect : Type :=
| JoinRoom (sid : string) (room : pyval)
| Emit (event : string) (payload : list (string * pyval)) (dest : pyval).

(** ** The chess rooms

    A handler gets the sender's [request.sid] and the event's payload
    [data], a JSON object, and works on the module-level dict [games].  It
    returns the dict it leaves and what it sent, or raises. *)
Section Rooms.
Context `{Chess}.

(** One entry of [games]: [{'board': ..., 'players': ..., 'fen': ...}]. *)
Record game : Type := Game {
  board : Board;
  players : list string;
  fen : string
}.

(** [chess.Move.from_uci(uci)] under [try: ... except Exception:].
    [uci] is whatever the payload holds.  On anything but a string the
    library raises before it can build a move ([len(None)] and [len(5)]
    are [TypeError]s, a list fails the square lookup), and every such
    exception is an [Exception], so the [except] branch is taken. *)
Definition move_from_uci (uci : pyval) : option Move :=
  match uci with
  | PStr s => from_uci s
  | _ => None
  end.

(** [data.get('room') or 'default'] *)
Definition room_of (data : gmap string pyval) : pyval :=
  py_or (py_get data "room") (PStr "default").

(** [@socketio.on('join_game')].  [if not game] tests for [None]: a room's
    dict has three keys and is never empty. *)
Definition on_join_game (sid : string) (data : gmap string pyval)
    (games : gmap pykey game) : res (gmap pykey game * list effect) :=
  let room := room_of data in
  (* join_room(room); games.get(room) *)
  try! k <- py_hash room;
  let '(game, games) :=
    match games !! k with
    | Some game => (game, games)
    | None =>
        let board := new_board in
        let game := Game board [] (board_fen board) in
        (game, <[k := game]> games)
    end in
  (* game['players'] is the list held by games[room] *)
  let game :=
    if bool_decide (sid ∈ players game) then game
    else Game (board game) (players game ++ [sid])%list (fen game) in
  let games := <[k := game]> games in
  Done (games,
        [JoinRoom sid room;
         Emit "game_state" [("fen", PStr (fen game))] (PStr sid)]).

(** [@socketio.on('make_move')].  [board.push] changes the board object
    that [games[room]] holds; [game['fen']] is stored right after. *)
Definition on_make_move (sid : string) (data : gmap string pyval)
    (games : gmap pykey game) : res (gmap pykey game * list effect) :=
  let room := room_of data in
  let uci := py_get data "uci" in
  try! k <- py_hash room;
  match games !! k with
  | None =>
      Done (games, [Emit "error" [("msg", PStr "game not found")] (PStr sid)])
  | Some game =>
      let board := board game in
      match move_from_uci uci with
      | None =>
          Done (games,
                [Emit "invalid_move" [("msg", PStr "invalid uci")] (PStr sid)])
      | Some move =>
          if is_legal board move then
            let board := push board move in
            let game := Game board (players game) (board_fen board) in
            Done (<[k := game]> games,
                  [Emit "move_made"
                     [("uci", uci); ("fen", PStr (board_fen board))] room])
          else
            Done (games,
                  [Emit "invalid_move" [("msg", PStr "illegal move")]
                     (PStr sid)])
      end
  end.

(** [@socketio.on('reset_game')] *)
Definition on_reset (sid : string) (data : gmap string pyval)
    (games : gmap pykey game) : res (gmap pykey game * list effect) :=
  let room := room_of data in
  let board := new_board in
  try! k <- py_hash room;
  Done (<[k := Game board [] (board_fen board)]> games,
        [Emit "game_state" [("fen", PStr (board_fen board))] room]).

(** The three socket events, each with the sender's [request.sid]. *)
Inductive event : Type :=
| JoinGame (sid : string) (data : gmap string pyval)
| MakeMove (sid : string) (data : gmap string pyval)
| ResetGame (sid : string) (data : gmap string pyval).

Definition handle (ev : event) (games : gmap pykey game)
  : res (gmap pykey game * list effect) :=
  match ev with
  | JoinGame sid data => on_join_game sid data games
  | MakeMove sid data => on_make_move sid data games
  | ResetGame sid data => on_reset sid data games
  end.

(** A handler that raises has not touched [games] yet: the only raising
    step is hashing the room, which comes before every store. *)
Definition step (games : gmap pykey game) (ev : event) : gmap pykey game :=
  match handle ev games with
  | Done (games', _) => games'
  | Raise _ => games
  end.

(** The server starts with [games = {}] and handles events one at a
    time. *)
Definition run (evs : list event) : gmap pykey game :=
  foldl step ∅ evs.

End Rooms.

(** The payload an event came with. *)
Definition event_data `{Chess} (ev : event) : gmap string pyval :=
  match ev with
  | JoinGame _ data | MakeMove _ data | ResetGame _ data => data
  end.

(** ** HTTP handlers *)

(** [jsonify(body)] with its status code. *)
Inductive response : Type :=
| Response (status : Z) (body : pyval).

(** *** Quiz

    [random.sample(population, k)].  The loop is CPython's: the items not
    yet chosen are kept at [pool[0 : n - i]]; step [i] draws a position [j]
    below [n - i], takes [pool[j]] and moves [pool[n - i - 1]] into the
    vacancy.  [rng i] is the raw value behind the [i]-th draw and
    [rng i `mod` b] the draw below [b].  (Above a size threshold CPython
    remembers the chosen positions in a set instead of moving items; either
    way [k] distinct positions are drawn.) *)
Fixpoint sample_loop (rng : nat -> nat) (n i : nat) (pool : list pyval)
    (k : nat) : list pyval :=
  match k with
  | O => []
  | S k' =>
      let j := rng i `mod` (n - i) in
      match pool !! j, pool !! (n - i - 1) with
      | Some x, Some y => x :: sample_loop rng n (S i) (<[j := y]> pool) k'
      | _, _ => []
      end
  end.

Definition random_sample (rng : nat -> nat) (population : list pyval)
    (k : nat) : res (list pyval) :=
  let n := length population in
  if decide (k <= n) then Done (sample_loop rng n 0 population k)
  else Raise ValueError.

(** [load_quiz()]: the list in [data/quiz_questions.json], or [[]] without
    the file. *)
Definition load_quiz (file : option (list pyval)) : list pyval :=
  match file with
  | Some questions => questions
  | None => []
  end.

(** [questions] is what [load_quiz()] returned: the list in
    [data/quiz_questions.json], or [[]] without the file. *)
Definition api_quiz_start (rng : nat -> nat) (questions : list pyval)
  : res response :=
  if decide (length questions < 15) then
    Done (Response 400
            (PDict [("error", PStr "Not enough questions in bank")]))
  else
    try! selected <- random_sample rng questions 15;
    Done (Response 200 (PList selected)).

(** *** Leaderboard

    One row of the [leaderboard] table.  [timestamp] is the text SQLite
    stores for [CURRENT_TIMESTAMP] ([YYYY-MM-DD HH:MM:SS]); SQLite orders
    text bytewise, which on that format is the order of time. *)
Record row : Type := Row {
  rowid : Z;
  name : string;
  score : Z;
  total : Z;
  timestamp : string
}.

(** A Python int bound to an SQLite INTEGER has to fit 64 bits. *)
Definition sql_int (z : Z) : res Z :=
  if decide (- 2 ^ 63 <= z < 2 ^ 63)%Z then Done z else Raise OverflowError.

(** A parameter bound for the [name TEXT NOT NULL] column: [None] on NULL.
    Integers are stored as their decimal text (column affinity). *)
Definition sql_text (v : pyval) : res (option string) :=
  match v with
  | PNone => Done None
  | PStr s => Done (Some s)
  | PBool b => Done (Some (if b then "1" else "0"))
  | PInt z => try! z <- sql_int z; Done (Some (pretty z))
  | PList _ | PDict _ => Raise InterfaceError
  end.

Section Leaderboard.
(** [int(s)] on a string: Python's reading of integer literals, taken as
    given. *)
Variable int_of_str : string -> res Z.

(** [int(v)] *)
Definition py_int (v : pyval) : res Z :=
  match v with
  | PInt z => Done z
  | PBool b => Done (if b then 1 else 0)%Z
  | PStr s => int_of_str s
  | PNone | PList _ | PDict _ => Raise TypeError
  end.

(** [now] is [CURRENT_TIMESTAMP] at the insert.  The table only grows, so
    AUTOINCREMENT numbers the rows 1, 2, 3, ...  A handler that raises
    has committed nothing. *)
Definition api_quiz_submit (now : string) (payload : gmap string pyval)
    (db : list row) : res (list row * response) :=
  let name := py_get_default payload "name" (PStr "Anonymous") in
  try! score <- py_int (py_get_default payload "score" (PInt 0));
  try! total <- py_int (py_get_default payload "total" (PInt 0));
  try! name <- sql_text name;
  try! score <- sql_int score;
  try! total <- sql_int total;
  match name with
  | None => Raise IntegrityError
  | Some name =>
      Done ((db ++ [Row (Z.of_nat (length db) + 1) name score total now])%list,
            Response 200 (PDict [("status", PStr "ok")]))
  end.

Definition submit_step (db : list row) (p : string * gmap string pyval)
  : list row :=
  match api_quiz_submit p.1 p.2 db with
  | Done (db', _) => db'
  | Raise _ => db
  end.
End Leaderboard.

(** The JSON body of a submission [(name, score, total)]. *)
Definition submission (n : string) (s t : Z) : gmap string pyval :=
  {[ "name" := PStr n; "score" := PInt s; "total" := PInt t ]}.

(** [ORDER BY score DESC, timestamp ASC]: [a] may come before [b]. *)
Definition leaderboard_order (a b : row) : Prop :=
  (score b < score a)%Z ∨
  (score a = score b ∧ String.le (timestamp a) (timestamp b)).

#[global] Instance leaderboard_order_dec : RelDecision leaderboard_order.
Proof. intros a b. unfold leaderboard_order. apply _. Defined.

(** [dict(r)] for a row of [SELECT name, score, total, timestamp]. *)
Definition row_dict (r : row) : pyval :=
  PDict [("name", PStr (name r)); ("score", PInt (score r));
         ("total", PInt (total r)); ("timestamp", PStr (timestamp r))].

(** [... ORDER BY score DESC, timestamp ASC LIMIT 50].  SQL leaves the
    order of rows that tie on both columns open; the sort used here is one
    of the orders SQLite may return. *)
Definition leaderboard_rows (db : list row) : list row :=
  take 50 (merge_sort leaderboard_order db).

Definition api_leaderboard (db : list row) : response :=
  Response 200 (PList (row_dict <$> leaderboard_rows db)).

(** *** Writers

    [load_writers()] returns the object in [data/writers.json]: epoch names
    mapped to lists of writers, each writer a JSON object.  It is kept
    here as the items of the dict in their order, a writer as the items of
    its dict (each key once). *)
Definition load_writers
    (file : option (list (string * list (list (string * pyval)))))
  : list (string * list (list (string * pyval))) :=
  match file with
  | Some data => data
  | None => [("golden_age", []); ("silver_age", []); ("soviet_period", [])]
  end.

(** [w.get(k)] on a writer. *)
Fixpoint dict_get (d : list (string * pyval)) (k : string) : pyval :=
  match d with
  | [] => PNone
  | (k', v) :: d => if decide (k' = k) then v else dict_get d k
  end.

Section Writers.
(** [str(v)] of a list or dict is its [repr], taken as given. *)
Variable py_repr : pyval -> string.

(** [str(v)] *)
Definition py_str (v : pyval) : string :=
  match v with
  | PNone => "None"
  | PBool b => if b then "True" else "False"
  | PInt z => pretty z
  | PStr s => s
  | PList _ | PDict _ => py_repr v
  end.

(** [for w in lst: if str(w.get("id")) == str(writer_id): return w];
    [writer_id] is the text of the URL segment. *)
Fixpoint find_writer (lst : list (list (string * pyval))) (writer_id : string)
  : option (list (string * pyval)) :=
  match lst with
  | [] => None
  | w :: lst =>
      if decide (py_str (dict_get w "id") = writer_id) then Some w
      else find_writer lst writer_id
  end.

(** [for epoch, lst in data.items(): ...] *)
Fixpoint find_in_epochs (items : list (string * list (list (string * pyval))))
    (writer_id : string) : option (list (string * pyval)) :=
  match items with
  | [] => None
  | (epoch, lst) :: items =>
      match find_writer lst writer_id with
      | Some w => Some w
      | None => find_in_epochs items writer_id
      end
  end.

Definition api_writer (data : list (string * list (list (string * pyval))))
    (writer_id : string) : response :=
  match find_in_epochs data writer_id with
  | Some w => Response 200 (PDict w)
  | None => Response 404 (PDict [("error", PStr "not found")])
  end.
End Writers.

(** ** A small engine to run the handlers on

    The handlers take the rules from python-chess.  To evaluate them on
    concrete events this instance stands in for the library: a board is the
    list of moves played, a move text parses when it has four or five
    characters and is not the null move with equal squares, and a move is
    legal when it has not been played yet.  It is not the game of chess. *)
Module HistoryEngine.
Definition parse (s : string) : option string :=
  if bool_decide (String.length s = 4 ∨ String.length s = 5)
  then Some s else None.

Definition unplayed (b : list string) (m : string) : bool :=
  bool_decide (m ∉ b).

Definition play (b : list string) (m : string) : list string :=
  (b ++ [m])%list.

Definition show (b : list string) : string :=
  String.concat "/" b.

#[export] Instance engine : Chess := {|
  Board := list string;
  Move := string;
  new_board := [];
  from_uci := parse;
  is_legal := unplayed;
  push := play;
  board_fen := show
|}.
End HistoryEngine.

(** * Properties of the chess rooms *)

Section RoomFacts.
Context `{Chess}.
Implicit Types (games : gmap pykey game) (data : gmap string pyval).
Implicit Types (sid : string) (k : pykey) (g : game).

(** What [on_join_game] leaves in [games]. *)
Lemma on_join_game_eq sid data games k :
  py_hash (room_of data) = Done k →
  on_join_game sid data games =
    let g := default (Game new_board [] (board_fen new_board)) (games !! k) in
    let g' := if bool_decide (sid ∈ players g) then g
              else Game (board g) (players g ++ [sid])%list (fen g) in
    Done (<[k := g']> games,
          [JoinRoom sid (room_of data);
           Emit "game_state" [("fen", PStr (fen g'))] (PStr sid)]).
Proof.
  intros Hk. unfold on_join_game. rewrite Hk. simpl.
  destruct (games !! k) as [g|] eqn:Hg; simpl; [done|].
  by rewrite insert_insert_eq.
Qed.

Lemma step_preserves (P : game → Prop) games ev :
  P (Game new_board [] (board_fen new_board)) →
  (∀ g s, s ∉ players g →
     P g → P (Game (board g) (players g ++ [s])%list (fen g))) →
  (∀ g m, P g →
     P (Game (push (board g) m) (players g) (board_fen (push (board g) m)))) →
  map_Forall (λ _, P) games → map_Forall (λ _, P) (step games ev).
Proof.
  intros Hnew Hadd Hpush Hall. unfold step.
  destruct ev as [sid data|sid data|sid data]; simpl.
  - destruct (py_hash (room_of data)) as [k|e] eqn:Hk.
    + rewrite (on_join_game_eq _ _ _ k Hk). simpl.
      apply map_Forall_insert_2; [|done].
      destruct (games !! k) as [g|] eqn:Hg; simpl.
      * pose proof (Hall k g Hg). case_bool_decide; auto.
      * apply (Hadd _ sid) in Hnew; [done|]. simpl. apply not_elem_of_nil.
    + unfold on_join_game. by rewrite Hk.
  - unfold on_make_move.
    destruct (py_hash (room_of data)) as [k|e]; simpl; [|done].
    destruct (games !! k) as [g|] eqn:Hg; [|done].
    destruct (move_from_uci _) as [m|]; [|done].
    destruct (is_legal _ _); [|done].
    apply map_Forall_insert_2; [|done]. apply Hpush. by apply (Hall k).
  - unfold on_reset.
    destruct (py_hash (room_of data)) as [k|e]; simpl; [|done].
    by apply map_Forall_insert_2.
Qed.

Lemma run_preserves (P : game → Prop) evs :
  P (Game new_board [] (board_fen new_board)) →
  (∀ g s, s ∉ players g →
     P g → P (Game (board g) (players g ++ [s])%list (fen g))) →
  (∀ g m, P g →
     P (Game (push (board g) m) (players g) (board_fen (push (board g) m)))) →
  map_Forall (λ _, P) (run evs).
Proof.
  intros Hnew Hadd Hpush. unfold run.
  assert (Hgen : ∀ games, map_Forall (λ _, P) games →
                          map_Forall (λ _, P) (foldl step games evs)).
  { induction evs as [|ev evs IH]; intros games Hall; simpl; [done|].
    apply IH. by apply step_preserves. }
  apply Hgen, map_Forall_empty.
Qed.

(** C1: after every sequence of join, move and reset events, in every
    room the stored [fen] is the serialization of the stored [board]. *)
Theorem fen_is_serialized_board (evs : list event) :
  map_Forall (λ _ g, fen g = board_fen (board g)) (run evs).
Proof. apply run_preserves; simpl; auto. Qed.

(** C2: a move on an existing room that does not parse, or parses to a
    move that is not legal on the room's board, leaves [games] as it was
    (board, fen and players of every room) and sends one [invalid_move]
    message, addressed to the sender's own sid. *)
Theorem failed_move_changes_nothing sid data games k g :
  py_hash (room_of data) = Done k →
  games !! k = Some g →
  (move_from_uci (py_get data "uci") = None →
   on_make_move sid data games =
     Done (games,
           [Emit "invalid_move" [("msg", PStr "invalid uci")] (PStr sid)]))
  ∧
  (∀ m, move_from_uci (py_get data "uci") = Some m →
        is_legal (board g) m = false →
   on_make_move sid data games =
     Done (games,
           [Emit "invalid_move" [("msg", PStr "illegal move")] (PStr sid)])).
Proof.
  intros Hk Hg. unfold on_make_move. rewrite Hk. simpl. rewrite Hg.
  split.
  - by intros ->.
  - intros m -> Hm. by rewrite Hm.
Qed.

(** C3: a move on an existing room that parses and is legal on the
    room's board replaces the board by the board after the move, stores
    the serialization of that new board, keeps the players, and emits
    [move_made] with the move text and the new serialization to the
    room's channel. *)
Theorem legal_move_is_applied sid data games k g m :
  py_hash (room_of data) = Done k →
  games !! k = Some g →
  move_from_uci (py_get data "uci") = Some m →
  is_legal (board g) m = true →
  on_make_move sid data games =
    Done (<[k := Game (push (board g) m) (players g)
                   (board_fen (push (board g) m))]> games,
          [Emit "move_made"
             [("uci", py_get data "uci");
              ("fen", PStr (board_fen (push (board g) m)))]
             (room_of data)]).
Proof.
  intros Hk Hg Hm Hl. unfold on_make_move. rewrite Hk. simpl.
  by rewrite Hg, Hm, Hl.
Qed.

(** C5: whatever [games] holds for the room, a reset stores a new room
    there: the starting board, its serialization, no players.  The new
    state is emitted to the room's channel. *)
Theorem reset_installs_fresh_room sid data games k :
  py_hash (room_of data) = Done k →
  ∃ games',
    on_reset sid data games =
      Done (games',
            [Emit "game_state" [("fen", PStr (board_fen new_board))]
               (room_of data)]) ∧
    games' !! k = Some (Game new_board [] (board_fen new_board)) ∧
    (∀ k', k' ≠ k → games' !! k' = games !! k').
Proof.
  intros Hk. unfold on_reset. rewrite Hk. simpl.
  eexists. split; [done|]. split.
  - apply lookup_insert_eq.
  - intros k' Hne. by apply lookup_insert_ne.
Qed.

(** C6, as the code has it: a move for a room that [games] does not hold
    sends the sender an [error] message and changes nothing; a reset for
    such a room is not refused, it creates the room and emits its state
    to the room's channel. *)
Theorem unknown_room_move_refused_reset_creates sid data games k :
  py_hash (room_of data) = Done k →
  games !! k = None →
  on_make_move sid data games =
    Done (games, [Emit "error" [("msg", PStr "game not found")] (PStr sid)])
  ∧
  on_reset sid data games =
    Done (<[k := Game new_board [] (board_fen new_board)]> games,
          [Emit "game_state" [("fen", PStr (board_fen new_board))]
             (room_of data)]).
Proof.
  intros Hk Hg. unfold on_make_move, on_reset. rewrite Hk. simpl.
  by rewrite Hg.
Qed.


(** A join enrols the sender in the channel named by the room, the one
    [move_made] and a reset's [game_state] are emitted to, and answers the
    sender alone. *)
Lemma join_enrols_sender sid data games k :
  py_hash (room_of data) = Done k →
  ∃ games' f,
    on_join_game sid data games =
      Done (games',
            [JoinRoom sid (room_of data);
             Emit "game_state" [("fen", PStr f)] (PStr sid)]).
Proof.
  intros Hk. rewrite (on_join_game_eq sid data games k Hk). by eexists _, _.
Qed.

(** C10: on an existing room, a move whose [uci] field is missing, is
    [None], or is a string [from_uci] rejects (or is no string at all)
    returns normally through the [invalid uci] branch: one message to
    the sender, [games] unchanged. *)
Theorem unparsable_uci_is_caught sid data games k g :
  py_hash (room_of data) = Done k →
  games !! k = Some g →
  (∀ s, data !! "uci" = Some (PStr s) → from_uci s = None) →
  on_make_move sid data games =
    Done (games,
          [Emit "invalid_move" [("msg", PStr "invalid uci")] (PStr sid)]).
Proof.
  intros Hk Hg Hs. unfold on_make_move. rewrite Hk. simpl. rewrite Hg.
  assert (move_from_uci (py_get data "uci") = None) as ->; [|done].
  unfold py_get, move_from_uci.
  destruct (data !! "uci") as [[| | |s| |]|]; simpl; auto.
Qed.

(** Handlers read [data] through [room_of] and the [uci] field only. *)
Lemma handlers_read_room_and_uci sid data1 data2 games :
  room_of data1 = room_of data2 →
  py_get data1 "uci" = py_get data2 "uci" →
  on_join_game sid data1 games = on_join_game sid data2 games ∧
  on_make_move sid data1 games = on_make_move sid data2 games ∧
  on_reset sid data1 games = on_reset sid data2 games.
Proof.
  intros Hr Hu. unfold on_join_game, on_make_move, on_reset.
  by rewrite Hr, Hu.
Qed.

Lemma room_of_insert data v :
  room_of (<["room" := v]> data) = if truthy v then v else PStr "default".
Proof. unfold room_of, py_get, py_or. by rewrite lookup_insert_eq. Qed.

Lemma room_of_delete data : room_of (delete "room" data) = PStr "default".
Proof. unfold room_of, py_get, py_or. by rewrite lookup_delete_eq. Qed.

(** C9: a [room] field that is absent, [None] or the empty string (or
    any other false value) resolves to the room id ["default"], and the
    three handlers then act exactly as on a payload without the field. *)
Theorem falsy_room_is_default data :
  room_of (delete "room" data) = PStr "default" ∧
  room_of (<["room" := PNone]> data) = PStr "default" ∧
  room_of (<["room" := PStr ""]> data) = PStr "default" ∧
  (∀ v, room_of (<["room" := v]> data) =
        if truthy v then v else PStr "default") ∧
  py_hash (PStr "default") = Done (KStr "default") ∧
  (∀ v sid games, truthy v = false →
     on_join_game sid (<["room" := v]> data) games =
       on_join_game sid (delete "room" data) games ∧
     on_make_move sid (<["room" := v]> data) games =
       on_make_move sid (delete "room" data) games ∧
     on_reset sid (<["room" := v]> data) games =
       on_reset sid (delete "room" data) games).
Proof.
  split; [apply room_of_delete|].
  split; [apply room_of_insert|].
  split; [apply room_of_insert|].
  split; [apply room_of_insert|].
  split; [done|].
  intros v sid games Hv.
  apply handlers_read_room_and_uci.
  - by rewrite room_of_insert, room_of_delete, Hv.
  - unfold py_get. by rewrite lookup_insert_ne, lookup_delete_ne.
Qed.

(** C4: a join for a room [games] does not hold creates it (starting
    board, no players) and enrols the sender; a join for a room it holds
    keeps board and fen and adds the sender only when absent; no other
    room is touched; the same join repeated changes nothing more; and in
    every reachable state no sid occurs twice among a room's players. *)
Theorem join_is_idempotent :
  (∀ sid data games k,
     py_hash (room_of data) = Done k →
     ∃ games1 out,
       on_join_game sid data games = Done (games1, out) ∧
       (games !! k = None →
        games1 = <[k := Game new_board [sid] (board_fen new_board)]> games) ∧
       (∀ g, games !! k = Some g →
        games1 = <[k := Game (board g)
                         (if bool_decide (sid ∈ players g)
                          then players g
                          else (players g ++ [sid])%list)
                         (fen g)]> games) ∧
       dom games1 = {[k]} ∪ dom games ∧
       on_join_game sid data games1 = Done (games1, out)) ∧
  (∀ evs : list event, map_Forall (λ _ g, NoDup (players g)) (run evs)).
Proof.
  split.
  - intros sid data games k Hk.
    rewrite (on_join_game_eq sid data games k Hk).
    eexists _, _. split; [done|]. cbv zeta.
    split; [|split; [|split]].
    + by intros ->.
    + intros [b ps f] ->. simpl. by case_bool_decide.
    + apply dom_insert_L.
    + rewrite (on_join_game_eq sid data _ k Hk). cbv zeta.
      rewrite lookup_insert_eq. simpl.
      set (g := default _ (games !! k)).
      assert (Hin : sid ∈ players
                (if bool_decide (sid ∈ players g) then g
                 else Game (board g) (players g ++ [sid])%list (fen g))).
      { case_bool_decide; [done|]. simpl.
        apply elem_of_app. right. by apply list_elem_of_singleton. }
      rewrite (bool_decide_eq_true_2 _ Hin).
      by rewrite insert_insert_eq.
  - intros evs. apply run_preserves; simpl.
    + constructor.
    + intros g s Hs Hnd. apply NoDup_app. split; [done|].
      split; [|apply NoDup_singleton].
      intros x Hx ->%list_elem_of_singleton. contradiction.
    + auto.
Qed.

End RoomFacts.

(** * Properties of the quiz picker *)

Section QuizFacts.
Local Open Scope nat_scope.
Implicit Types (pool population questions : list pyval).

(** One turn of the loop: the chosen item and the shortened pool make up
    the pool the turn started from. *)
Lemma sample_turn pool m j x y :
  0 < m → m ≤ length pool → j < m →
  pool !! j = Some x → pool !! (m - 1) = Some y →
  take m pool ≡ₚ x :: take (m - 1) (<[j := y]> pool).
Proof.
  intros Hm Hlen Hj Hx Hy.
  replace m with (S (m - 1)) at 1 by lia.
  rewrite (take_S_r _ _ _ Hy).
  destruct (decide (j = m - 1)) as [->|Hne].
  - assert (x = y) as -> by congruence.
    rewrite list_insert_id by done.
    by rewrite Permutation_app_comm.
  - rewrite take_insert_lt by lia.
    set (init := take (m - 1) pool).
    assert (Hix : init !! j = Some x).
    { unfold init. rewrite lookup_take_lt by lia. done. }
    rewrite insert_take_drop by (by apply lookup_lt_Some in Hix).
    rewrite <- (take_drop_middle init j x Hix) at 1.
    rewrite Permutation_app_comm. simpl.
    rewrite <- !Permutation_middle. apply perm_swap.
Qed.

Lemma sample_loop_spec rng n k :
  ∀ i pool,
    length pool = n → i + k ≤ n →
    length (sample_loop rng n i pool k) = k ∧
    ∃ rest, sample_loop rng n i pool k ++ rest ≡ₚ take (n - i) pool.
Proof.
  induction k as [|k IH]; intros i pool Hlen Hik; simpl.
  - split; [done|]. by eexists.
  - assert (Hj : rng i `mod` (n - i) < n - i)
      by (apply Nat.mod_upper_bound; lia).
    destruct (lookup_lt_is_Some_2 pool (rng i `mod` (n - i))) as [x Hx];
      [lia|].
    destruct (lookup_lt_is_Some_2 pool (n - i - 1)) as [y Hy]; [lia|].
    rewrite Hx, Hy. simpl.
    destruct (IH (S i) (<[rng i `mod` (n - i) := y]> pool)) as [Hl [rest Hr]];
      [by rewrite length_insert|lia|].
    split; [by rewrite Hl|].
    exists rest. rewrite Hr.
    replace (n - S i) with (n - i - 1) by lia.
    symmetry. apply sample_turn; auto; lia.
Qed.

(** C7: with fewer than 15 questions loaded the answer is the 400 error
    and carries no question; otherwise it is 15 items of the bank, taken
    from 15 different positions of it. *)
Theorem quiz_start_fifteen_or_error rng questions :
  (length questions < 15 →
   api_quiz_start rng questions =
     Done (Response 400
             (PDict [("error", PStr "Not enough questions in bank")]))) ∧
  (15 ≤ length questions →
   ∃ selected rest,
     api_quiz_start rng questions = Done (Response 200 (PList selected)) ∧
     length selected = 15 ∧
     selected ++ rest ≡ₚ questions).
Proof.
  unfold api_quiz_start, random_sample. split; intros Hn.
  - by rewrite decide_True.
  - rewrite decide_False by lia. rewrite decide_True by lia. simpl.
    destruct (sample_loop_spec rng (length questions) 15 0 questions)
      as [Hl [rest Hr]]; [done|lia|].
    eexists _, rest. split; [done|]. split; [done|].
    rewrite Hr. rewrite Nat.sub_0_r. by rewrite firstn_all.
Qed.
End QuizFacts.

(** * Properties of the leaderboard *)

Section LeaderboardFacts.
Local Open Scope nat_scope.
Implicit Types (db : list row) (a b c r : row).

#[local] Instance leaderboard_order_total : Total leaderboard_order.
Proof.
  intros a b. unfold leaderboard_order.
  destruct (Z.lt_trichotomy (score a) (score b)) as [Hlt|[Heq|Hgt]];
    [by right; left| |by left; left].
  destruct (String.le_total (timestamp a) (timestamp b)); [left|right];
    right; auto.
Qed.

#[local] Instance leaderboard_order_trans : Transitive leaderboard_order.
Proof.
  intros a b c [Hab|[Hab Tab]] [Hbc|[Hbc Tbc]]; unfold leaderboard_order.
  - left. lia.
  - left. lia.
  - left. lia.
  - right. split; [congruence|]. by etrans.
Qed.

Lemma leaderboard_rows_spec db :
  length (leaderboard_rows db) ≤ 50 ∧
  StronglySorted leaderboard_order (leaderboard_rows db) ∧
  ∃ rest, leaderboard_rows db ++ rest ≡ₚ db ∧
          ∀ r r', r ∈ leaderboard_rows db → r' ∈ rest →
                  leaderboard_order r r'.
Proof.
  unfold leaderboard_rows.
  pose proof (StronglySorted_merge_sort leaderboard_order db) as Hs.
  rewrite <- (take_drop 50 (merge_sort leaderboard_order db)) in Hs.
  split; [rewrite length_take; lia|].
  split; [by apply StronglySorted_app_1_l in Hs|].
  exists (drop 50 (merge_sort leaderboard_order db)). split.
  - rewrite take_drop. apply merge_sort_Permutation.
  - intros r r'. by apply StronglySorted_app_1_elem_of.
Qed.

(** C8: after any sequence of submissions the leaderboard has at most 50
    rows, each row before every later one by score descending then
    timestamp ascending, and the rows left out rank no better than the
    rows returned.  After (A,10,15), (B,12,15), (A,8,15), whenever they
    were made, the rows are B, A with 10, A with 8. *)
Theorem leaderboard_top_fifty_in_order (int_of_str : string → res Z) :
  (∀ subs : list (string * gmap string pyval),
     let db := foldl (submit_step int_of_str) [] subs in
     length (leaderboard_rows db) ≤ 50 ∧
     StronglySorted leaderboard_order (leaderboard_rows db) ∧
     ∃ rest, leaderboard_rows db ++ rest ≡ₚ db ∧
             ∀ r r', r ∈ leaderboard_rows db → r' ∈ rest →
                     leaderboard_order r r') ∧
  (∀ t1 t2 t3 : string,
     let db := foldl (submit_step int_of_str) []
                 [(t1, submission "A" 10 15); (t2, submission "B" 12 15);
                  (t3, submission "A" 8 15)] in
     api_leaderboard db =
       Response 200
         (PList [row_dict (Row 2 "B" 12 15 t2);
                 row_dict (Row 1 "A" 10 15 t1);
                 row_dict (Row 3 "A" 8 15 t3)])).
Proof.
  split.
  - intros subs db. apply leaderboard_rows_spec.
  - intros t1 t2 t3. vm_compute. reflexivity.
Qed.
End LeaderboardFacts.

(** * More on the chess rooms *)

Section RoomFrame.
Context `{Chess}.
Implicit Types (games : gmap pykey game) (data : gmap string pyval).
Implicit Types (sid : string) (k : pykey) (g : game) (ev : event).

(** What one event leaves in [games], by the event's kind. *)
Lemma step_spec games ev :
  match py_hash (room_of (event_data ev)) with
  | Raise _ => step games ev = games
  | Done k =>
      match ev with
      | JoinGame sid _ =>
          step games ev =
            <[k := let g := default (Game new_board [] (board_fen new_board))
                              (games !! k) in
                   if bool_decide (sid ∈ players g) then g
                   else Game (board g) (players g ++ [sid])%list (fen g)]>
              games
      | MakeMove _ data =>
          step games ev =
            match games !! k with
            | None => games
            | Some g =>
                match move_from_uci (py_get data "uci") with
                | None => games
                | Some m =>
                    if is_legal (board g) m
                    then <[k := Game (push (board g) m) (players g)
                                  (board_fen (push (board g) m))]> games
                    else games
                end
            end
      | ResetGame _ _ =>
          step games ev = <[k := Game new_board [] (board_fen new_board)]> games
      end
  end.
Proof.
  destruct ev as [sid data|sid data|sid data]; simpl;
    destruct (py_hash (room_of data)) as [k|e] eqn:Hk; unfold step; simpl.
  - by rewrite (on_join_game_eq sid data games k Hk).
  - unfold on_join_game. by rewrite Hk.
  - unfold on_make_move. rewrite Hk. simpl.
    destruct (games !! k) as [g|]; [|done].
    destruct (move_from_uci _) as [m|]; [|done].
    by destruct (is_legal _ _).
  - unfold on_make_move. by rewrite Hk.
  - unfold on_reset. by rewrite Hk.
  - unfold on_reset. by rewrite Hk.
Qed.

Lemma step_lookup_other games ev k' :
  py_hash (room_of (event_data ev)) ≠ Done k' →
  step games ev !! k' = games !! k'.
Proof.
  intros Hne. pose proof (step_spec games ev) as Hs.
  destruct (py_hash (room_of (event_data ev))) as [k|e]; [|by rewrite Hs].
  assert (k ≠ k') by congruence.
  destruct ev as [sid data|sid data|sid data]; rewrite Hs.
  - by rewrite lookup_insert_ne.
  - destruct (games !! k) as [g|]; [|done].
    destruct (move_from_uci _) as [m|]; [|done].
    destruct (is_legal _ _); [|done]. by rewrite lookup_insert_ne.
  - by rewrite lookup_insert_ne.
Qed.

(** An event changes at most the room its payload names: every other
    entry of [games] is as before. *)
Theorem step_touches_one_room games ev k' :
  py_hash (room_of (event_data ev)) ≠ Done k' →
  step games ev !! k' = games !! k'.
Proof. apply step_lookup_other. Qed.

Lemma step_keeps_room games ev k :
  is_Some (games !! k) → is_Some (step games ev !! k).
Proof.
  intros Hk. pose proof (step_spec games ev) as Hs.
  destruct (py_hash (room_of (event_data ev))) as [k0|e]; [|by rewrite Hs].
  destruct ev as [sid data|sid data|sid data]; rewrite Hs.
  - apply lookup_insert_is_Some'. by right.
  - destruct (games !! k0) as [g|]; [|done].
    destruct (move_from_uci _) as [m|]; [|done].
    destruct (is_legal _ _); [|done]. apply lookup_insert_is_Some'. by right.
  - apply lookup_insert_is_Some'. by right.
Qed.

(** No handler removes a room: a room that exists after some events
    exists after any further events. *)
Theorem rooms_never_disappear (evs1 evs2 : list event) k :
  is_Some (run evs1 !! k) → is_Some (run (evs1 ++ evs2) !! k).
Proof.
  unfold run. rewrite foldl_app. generalize (foldl step ∅ evs1).
  induction evs2 as [|ev evs2 IH]; intros games Hk; simpl; [done|].
  by apply IH, step_keeps_room.
Qed.


(** Only a join makes a player: whoever is listed in a room has sent a
    [join_game] for that room. *)
Theorem players_have_joined (evs : list event) k g sid :
  run evs !! k = Some g → sid ∈ players g →
  ∃ data, JoinGame sid data ∈ evs ∧ py_hash (room_of data) = Done k.
Proof.
  revert g. induction evs as [|ev evs IH] using rev_ind; intros g Hg Hin.
  { unfold run in Hg. simpl in Hg. by rewrite lookup_empty in Hg. }
  assert (Hold : ∀ g0, run evs !! k = Some g0 → sid ∈ players g0 →
            ∃ data, JoinGame sid data ∈ (evs ++ [ev])%list ∧
                    py_hash (room_of data) = Done k).
  { intros g0 Hg0 Hin0. destruct (IH g0 Hg0 Hin0) as (data & Hd & Hk).
    exists data. split; [|done]. apply elem_of_app. by left. }
  unfold run in Hg. rewrite foldl_app in Hg. simpl in Hg.
  fold (run evs) in Hg.
  pose proof (step_spec (run evs) ev) as Hs.
  destruct (py_hash (room_of (event_data ev))) as [k0|e] eqn:Hk0;
    [|rewrite Hs in Hg; by eapply Hold].
  destruct (decide (k0 = k)) as [->|Hne].
  - destruct ev as [s data|s data|s data]; rewrite Hs in Hg; simpl in Hk0.
    + rewrite lookup_insert_eq in Hg. injection Hg as <-.
      destruct (run evs !! k) as [g0|] eqn:Hg0; simpl in Hin.
      * case_bool_decide as Hmem; [by eapply Hold|].
        simpl in Hin. apply elem_of_app in Hin as [Hin|Hin]; [by eapply Hold|].
        apply list_elem_of_singleton in Hin as ->.
        exists data. split; [|done].
        apply elem_of_app. right. by apply list_elem_of_singleton.
      * apply list_elem_of_singleton in Hin as ->.
        exists data. split; [|done].
        apply elem_of_app. right. by apply list_elem_of_singleton.
    + destruct (run evs !! k) as [g0|] eqn:Hg0; [|congruence].
      destruct (move_from_uci _) as [m|];
        [|apply (Hold g); [congruence|done]].
      destruct (is_legal _ _); [|apply (Hold g); [congruence|done]].
      rewrite lookup_insert_eq in Hg. injection Hg as <-. by apply (Hold g0).
    + rewrite lookup_insert_eq in Hg. injection Hg as <-.
      by apply elem_of_nil in Hin.
  - assert (Hsame : step (run evs) ev !! k = run evs !! k).
    { apply step_lookup_other. rewrite Hk0. congruence. }
    rewrite Hsame in Hg. by eapply Hold.
Qed.

(** Whoever joins is sent the serialization of the board the room holds at
    that moment (the starting board when the join creates the room). *)
Theorem joiner_is_sent_current_position (evs : list event) sid data k :
  py_hash (room_of data) = Done k →
  ∃ games' g,
    on_join_game sid data (run evs) =
      Done (games',
            [JoinRoom sid (room_of data);
             Emit "game_state" [("fen", PStr (board_fen (board g)))]
               (PStr sid)]) ∧
    games' !! k = Some g ∧
    board g = default new_board (board <$> run evs !! k).
Proof.
  intros Hk. rewrite (on_join_game_eq sid data (run evs) k Hk). cbv zeta.
  assert (Hsync : map_Forall (λ _ g, fen g = board_fen (board g)) (run evs)).
  { apply run_preserves; simpl; auto. }
  set (g0 := default (Game new_board [] (board_fen new_board)) (run evs !! k)).
  assert (Hb : board g0 = default new_board (board <$> run evs !! k)).
  { unfold g0. by destruct (run evs !! k). }
  assert (Hf : fen g0 = board_fen (board g0)).
  { unfold g0. destruct (run evs !! k) as [g|] eqn:Hg; simpl; [|done].
    apply (Hsync k g Hg). }
  set (g' := if bool_decide (sid ∈ players g0) then g0
             else Game (board g0) (players g0 ++ [sid])%list (fen g0)).
  assert (Hb' : board g' = board g0) by (unfold g'; by case_bool_decide).
  assert (Hf' : fen g' = fen g0) by (unfold g'; by case_bool_decide).
  exists (<[k := g']> (run evs)), g'.
  split; [|split; [apply lookup_insert_eq|congruence]].
  by rewrite Hf', Hb', Hf.
Qed.

(** A move, accepted or not, creates no room and changes no room's
    players. *)
Theorem move_keeps_rooms_and_players sid data games games' out :
  on_make_move sid data games = Done (games', out) →
  dom games' = dom games ∧
  ∀ k, players <$> games' !! k = players <$> games !! k.
Proof.
  unfold on_make_move.
  destruct (py_hash (room_of data)) as [k0|e]; simpl; [|done].
  destruct (games !! k0) as [g|] eqn:Hg; [|by intros [= <- <-]].
  destruct (move_from_uci _) as [m|]; [|by intros [= <- <-]].
  destruct (is_legal _ _); intros [= <- <-]; [|done].
  split.
  - apply dom_insert_lookup_L. by rewrite Hg.
  - intros k. destruct (decide (k0 = k)) as [<-|Hne].
    + by rewrite lookup_insert_eq, Hg.
    + by rewrite lookup_insert_ne.
Qed.

(** A join changes no board and no stored serialization, and removes no
    player. *)
Theorem join_keeps_positions sid data games games' out k g :
  on_join_game sid data games = Done (games', out) →
  games !! k = Some g →
  ∃ g', games' !! k = Some g' ∧ board g' = board g ∧ fen g' = fen g ∧
        players g ⊆ players g'.
Proof.
  intros Hjoin Hg.
  destruct (py_hash (room_of data)) as [k0|e] eqn:Hk0;
    [|unfold on_join_game in Hjoin; by rewrite Hk0 in Hjoin].
  rewrite (on_join_game_eq sid data games k0 Hk0) in Hjoin.
  injection Hjoin as <- _.
  destruct (decide (k0 = k)) as [->|Hne].
  - rewrite lookup_insert_eq, Hg. simpl. eexists. split; [done|].
    case_bool_decide; simpl; [done|].
    repeat split. intros x Hx. apply elem_of_app. by left.
  - exists g. by rewrite lookup_insert_ne.
Qed.

(** Neither the move nor the reset handler looks at who sends: the dict a
    move leaves, and everything a reset does, are the same for every
    sender, joined or not. *)
Theorem sender_is_not_checked data games sid1 sid2 :
  step games (MakeMove sid1 data) = step games (MakeMove sid2 data) ∧
  on_reset sid1 data games = on_reset sid2 data games.
Proof.
  split; [|done].
  unfold step. simpl. unfold on_make_move.
  destruct (py_hash (room_of data)) as [k|e]; simpl; [|done].
  destruct (games !! k) as [g|]; [|done].
  destruct (move_from_uci _) as [m|]; [|done].
  by destruct (is_legal _ _).
Qed.
End RoomFrame.

(** * More on the quiz picker *)

Section SampleFacts.
Local Open Scope nat_scope.
Implicit Types (population questions : list pyval).

Lemma random_sample_spec rng population k :
  k ≤ length population →
  ∃ selected rest,
    random_sample rng population k = Done selected ∧
    length selected = k ∧
    selected ++ rest ≡ₚ population.
Proof.
  intros Hk. unfold random_sample. rewrite decide_True by done.
  destruct (sample_loop_spec rng (length population) k 0 population)
    as [Hl [rest Hr]]; [done|lia|].
  eexists _, rest. split; [done|]. split; [done|].
  rewrite Hr, Nat.sub_0_r. by rewrite firstn_all.
Qed.

Lemma quiz_start_selected rng questions :
  15 ≤ length questions →
  ∃ selected rest,
    api_quiz_start rng questions = Done (Response 200 (PList selected)) ∧
    length selected = 15 ∧ selected ++ rest ≡ₚ questions.
Proof.
  intros Hn. unfold api_quiz_start. rewrite decide_False by lia.
  destruct (random_sample_spec rng questions 15 Hn)
    as (selected & rest & -> & Hl & Hp).
  by exists selected, rest.
Qed.

(** When no question occurs twice in the bank, none occurs twice in a
    quiz, and every question of the quiz is one of the bank. *)
Theorem quiz_has_no_repeats rng questions :
  NoDup questions → 15 ≤ length questions →
  ∃ selected,
    api_quiz_start rng questions = Done (Response 200 (PList selected)) ∧
    NoDup selected ∧ selected ⊆ questions.
Proof.
  intros Hnd Hn.
  destruct (quiz_start_selected rng questions Hn)
    as (selected & rest & Heq & _ & Hp).
  exists selected. split; [done|].
  rewrite <- Hp in Hnd. apply NoDup_app in Hnd as (Hs & _ & _).
  split; [done|].
  intros x Hx. rewrite <- Hp. apply elem_of_app. by left.
Qed.

(** With exactly 15 questions in the bank the quiz is the whole bank, in
    some order. *)
Theorem quiz_of_fifteen_is_whole_bank rng questions :
  length questions = 15 →
  ∃ selected,
    api_quiz_start rng questions = Done (Response 200 (PList selected)) ∧
    selected ≡ₚ questions.
Proof.
  intros Hn.
  destruct (quiz_start_selected rng questions)
    as (selected & rest & Heq & Hl & Hp); [lia|].
  exists selected. split; [done|].
  assert (Hlen : length (selected ++ rest) = length questions)
    by (by rewrite Hp).
  rewrite length_app in Hlen.
  assert (rest = []) as -> by (apply length_zero_iff_nil; lia).
  by rewrite app_nil_r in Hp.
Qed.
End SampleFacts.

(** * More on the leaderboard *)

Section TableFacts.
Local Open Scope nat_scope.
Variable int_of_str : string → res Z.
Implicit Types (db : list row) (payload : gmap string pyval) (r : row).

#[local] Existing Instance leaderboard_order_total.
#[local] Existing Instance leaderboard_order_trans.

(** What a submission that returns has done. *)
Lemma submit_done now payload db db' resp :
  api_quiz_submit int_of_str now payload db = Done (db', resp) →
  ∃ n s t,
    sql_text (py_get_default payload "name" (PStr "Anonymous")) = Done (Some n) ∧
    py_int int_of_str (py_get_default payload "score" (PInt 0)) = Done s ∧
    py_int int_of_str (py_get_default payload "total" (PInt 0)) = Done t ∧
    (- 2 ^ 63 ≤ s < 2 ^ 63)%Z ∧ (- 2 ^ 63 ≤ t < 2 ^ 63)%Z ∧
    db' = (db ++ [Row (Z.of_nat (length db) + 1) n s t now])%list ∧
    resp = Response 200 (PDict [("status", PStr "ok")]).
Proof.
  unfold api_quiz_submit.
  destruct (py_int _ (py_get_default payload "score" _)) as [s|e]; [|done].
  destruct (py_int _ (py_get_default payload "total" _)) as [t|e]; [|done].
  destruct (sql_text _) as [[n|]|e]; simpl; unfold sql_int;
    repeat case_decide; simpl; try done.
  intros [= <- <-]. by exists n, s, t.
Qed.




(** A missing [name], [score] or [total] is stored as ["Anonymous"], 0,
    0; a [name] that is present but null is not replaced, and the
    submission fails. *)
Theorem submit_defaults now payload db :
  (∀ db' resp,
     api_quiz_submit int_of_str now payload db = Done (db', resp) →
     ∃ r, db' = (db ++ [r])%list ∧
          (payload !! "name" = None → name r = "Anonymous") ∧
          (payload !! "score" = None → score r = 0%Z) ∧
          (payload !! "total" = None → total r = 0%Z)) ∧
  (payload !! "name" = Some PNone →
   ∃ e, api_quiz_submit int_of_str now payload db = Raise e).
Proof.
  split.
  - intros db' resp Hs.
    apply submit_done in Hs as (n & s & t & Hn & Hsc & Htt & _ & _ & -> & _).
    eexists. split; [done|]. simpl.
    unfold py_get_default in *.
    split; [|split]; intros Hnone; rewrite Hnone in *; simpl in *; congruence.
  - intros Hnull. unfold api_quiz_submit, py_get_default. rewrite Hnull. simpl.
    destruct (py_int _ _) as [s|e]; [|by eexists].
    destruct (py_int _ _) as [t|e]; [|by eexists]. simpl.
    unfold sql_int. repeat case_decide; simpl; by eexists.
Qed.

Lemma leaderboard_rows_length db :
  length (leaderboard_rows db) = 50 `min` length db.
Proof.
  unfold leaderboard_rows.
  by rewrite length_take, (Permutation_length (merge_sort_Permutation _ db)).
Qed.

Lemma leaderboard_rows_all db :
  length db ≤ 50 → leaderboard_rows db ≡ₚ db.
Proof.
  intros Hn. unfold leaderboard_rows.
  rewrite take_ge; [apply merge_sort_Permutation|].
  by rewrite (Permutation_length (merge_sort_Permutation _ db)).
Qed.

(** The leaderboard has as many rows as the table, up to 50; a table of at
    most 50 rows is shown whole. *)
Theorem leaderboard_shows_all_up_to_fifty db :
  length (leaderboard_rows db) = 50 `min` length db ∧
  (length db ≤ 50 → leaderboard_rows db ≡ₚ db).
Proof. split; [apply leaderboard_rows_length|apply leaderboard_rows_all]. Qed.

(** The first row of the leaderboard has the highest score of the whole
    table, cut-off rows included. *)
Theorem leaderboard_head_has_top_score db r0 rows r :
  leaderboard_rows db = r0 :: rows → r ∈ db → (score r ≤ score r0)%Z.
Proof.
  unfold leaderboard_rows. intros Hrows Hr.
  pose proof (StronglySorted_merge_sort leaderboard_order db) as Hs.
  rewrite <- (merge_sort_Permutation leaderboard_order db) in Hr.
  destruct (merge_sort leaderboard_order db) as [|x l]; [done|].
  simpl in Hrows. injection Hrows as -> _.
  apply elem_of_cons in Hr as [->|Hr]; [lia|].
  apply StronglySorted_inv in Hs as [_ Hall].
  rewrite Forall_forall in Hall.
  destruct (Hall r Hr) as [Hlt|[Heq _]]; lia.
Qed.

(** When no two rows of the table agree on both score and timestamp, the
    leaderboard does not depend on the order the rows were stored in. *)
Theorem leaderboard_ignores_storage_order db1 db2 :
  db1 ≡ₚ db2 →
  (∀ r1 r2, r1 ∈ db1 → r2 ∈ db1 →
            score r1 = score r2 → timestamp r1 = timestamp r2 → r1 = r2) →
  leaderboard_rows db1 = leaderboard_rows db2.
Proof.
  intros Hp Hkey. unfold leaderboard_rows. f_equal.
  apply (StronglySorted_unique_strong leaderboard_order).
  - intros r1 r2 H1 H2 H12 H21.
    rewrite merge_sort_Permutation in H1.
    rewrite merge_sort_Permutation, <- Hp in H2.
    apply Hkey; [done|done|..];
      destruct H12 as [?|[? T12]], H21 as [?|[? T21]]; try lia.
    by apply (anti_symm String.le).
  - apply StronglySorted_merge_sort; apply _.
  - apply StronglySorted_merge_sort; apply _.
  - by rewrite !merge_sort_Permutation.
Qed.

(** A submission stored in a table of fewer than 50 rows is on the
    leaderboard right away. *)
Theorem new_row_is_listed now payload db db' resp :
  api_quiz_submit int_of_str now payload db = Done (db', resp) →
  length db < 50 →
  ∃ r, r ∈ leaderboard_rows db' ∧
       rowid r = (Z.of_nat (length db) + 1)%Z ∧ timestamp r = now.
Proof.
  intros Hs Hn.
  apply submit_done in Hs as (n & s & t & _ & _ & _ & _ & _ & -> & _).
  exists (Row (Z.of_nat (length db) + 1) n s t now). split; [|done].
  rewrite leaderboard_rows_all by (rewrite length_app; simpl; lia).
  apply elem_of_app. right. by apply list_elem_of_singleton.
Qed.
End TableFacts.

(** * The writer lookup *)

Section WriterFacts.
Variable py_repr : pyval → string.
Implicit Types (data : list (string * list (list (string * pyval)))).
Implicit Types (lst : list (list (string * pyval))) (w : list (string * pyval)).
Implicit Types (writer_id : string).

Lemma find_writer_Some lst writer_id w :
  find_writer py_repr lst writer_id = Some w →
  w ∈ lst ∧ py_str py_repr (dict_get w "id") = writer_id.
Proof.
  induction lst as [|w0 lst IH]; simpl; [done|].
  case_decide as Hid.
  - intros [= <-]. split; [apply list_elem_of_here|done].
  - intros [Hin Hw]%IH. split; [by apply list_elem_of_further|done].
Qed.

Lemma find_writer_None lst writer_id :
  find_writer py_repr lst writer_id = None ↔
  ∀ w, w ∈ lst → py_str py_repr (dict_get w "id") ≠ writer_id.
Proof.
  induction lst as [|w0 lst IH]; simpl.
  - split; [|done]. intros _ w Hw. by apply elem_of_nil in Hw.
  - case_decide as Hid.
    + split; [done|]. intros Hall. destruct (Hall w0); [left|done].
    + rewrite IH. split.
      * intros Hall w [->|Hw]%elem_of_cons; auto.
      * intros Hall w Hw. apply Hall. by right.
Qed.

Lemma find_in_epochs_flat data writer_id :
  find_in_epochs py_repr data writer_id =
    find_writer py_repr (concat (data.*2)) writer_id.
Proof.
  assert (Happ : ∀ l1 l2,
            find_writer py_repr (l1 ++ l2) writer_id =
              match find_writer py_repr l1 writer_id with
              | Some w => Some w
              | None => find_writer py_repr l2 writer_id
              end).
  { intros l1 l2. induction l1 as [|w l1 IH]; simpl; [done|].
    by case_decide. }
  induction data as [|[epoch lst] data IH]; simpl; [done|].
  by rewrite Happ, IH.
Qed.

(** The nested loops over epochs and writers are one search through all
    writers in file order: the epoch names play no part, and of several
    writers with the same id text the first one is served. *)
Theorem api_writer_serves_first_match data writer_id :
  api_writer py_repr data writer_id =
    match list_find (λ w, py_str py_repr (dict_get w "id") = writer_id)
            (concat (data.*2)) with
    | Some (_, w) => Response 200 (PDict w)
    | None => Response 404 (PDict [("error", PStr "not found")])
    end.
Proof.
  unfold api_writer. rewrite find_in_epochs_flat.
  generalize (concat (data.*2)). intros lst.
  assert (Hfind : find_writer py_repr lst writer_id =
            snd <$> list_find
                      (λ w, py_str py_repr (dict_get w "id") = writer_id) lst).
  { induction lst as [|w lst IH]; simpl; [done|].
    case_decide; [done|]. rewrite IH.
    by destruct (list_find _ lst) as [[i x]|]. }
  rewrite Hfind. by destruct (list_find _ lst) as [[i x]|].
Qed.

(** A writer that is served is one of the file, under the requested id
    text. *)
Theorem api_writer_found_is_listed data writer_id body :
  api_writer py_repr data writer_id = Response 200 body →
  ∃ epoch lst w,
    body = PDict w ∧ (epoch, lst) ∈ data ∧ w ∈ lst ∧
    py_str py_repr (dict_get w "id") = writer_id.
Proof.
  unfold api_writer.
  destruct (find_in_epochs py_repr data writer_id) as [w|] eqn:Hf; [|done].
  intros [= <-].
  induction data as [|[epoch lst] data IH]; simpl in Hf; [done|].
  destruct (find_writer py_repr lst writer_id) as [w'|] eqn:Hw.
  - injection Hf as ->. apply find_writer_Some in Hw as [Hin Hid].
    exists epoch, lst, w. repeat split; [left|done|done].
  - destruct (IH Hf) as (e & l & w' & [= <-] & He & Hl & Hid).
    exists e, l, w. repeat split; [by right|done|done].
Qed.

(** The answer is 404 exactly when no writer of any epoch has the
    requested id text. *)
Theorem api_writer_404_iff_no_match data writer_id :
  api_writer py_repr data writer_id =
    Response 404 (PDict [("error", PStr "not found")]) ↔
  ∀ epoch lst w, (epoch, lst) ∈ data → w ∈ lst →
                 py_str py_repr (dict_get w "id") ≠ writer_id.
Proof.
  unfold api_writer.
  assert (Hnone : find_in_epochs py_repr data writer_id = None ↔
            ∀ epoch lst w, (epoch, lst) ∈ data → w ∈ lst →
                           py_str py_repr (dict_get w "id") ≠ writer_id).
  { induction data as [|[epoch lst] data IH]; simpl.
    - split; [|done]. intros _ e l w He. by apply elem_of_nil in He.
    - destruct (find_writer py_repr lst writer_id) as [w'|] eqn:Hw.
      + split; [done|]. intros Hall.
        apply find_writer_Some in Hw as [Hin Hid].
        destruct (Hall epoch lst w'); [left|done|done].
      + rewrite IH. rewrite find_writer_None in Hw. split.
        * intros Hall e l w [[= -> ->]|He]%elem_of_cons; eauto.
        * intros Hall e l w He. apply (Hall e). by right. }
  rewrite <- Hnone.
  destruct (find_in_epochs py_repr data writer_id); split; done.
Qed.


(** Without the data files the server still answers: every writer lookup
    is a 404 and a quiz start is the 400 error. *)
Theorem missing_data_files_give_errors writer_id rng :
  api_writer py_repr (load_writers None) writer_id =
    Response 404 (PDict [("error", PStr "not found")]) ∧
  api_quiz_start rng (load_quiz None) =
    Done (Response 400
            (PDict [("error", PStr "Not enough questions in bank")])).
Proof. split; reflexivity. Qed.
End WriterFacts.

(** * The theorems at concrete events, on [HistoryEngine] *)

#[local] Existing Instance HistoryEngine.engine.
Local Abbreviation HGame := (@Game HistoryEngine.engine).

Lemma failed_move_changes_nothing_witness :
  let games : gmap pykey game :=
    {[ KStr "default" := HGame ["e2e4"] ["s1"] "e2e4" ]} in
  on_make_move "s2" {[ "uci" := PStr "e2" ]} games =
    Done (games, [Emit "invalid_move" [("msg", PStr "invalid uci")] (PStr "s2")])
  ∧
  on_make_move "s2" {[ "uci" := PStr "e2e4" ]} games =
    Done (games,
          [Emit "invalid_move" [("msg", PStr "illegal move")] (PStr "s2")]).
Proof.
  intros games. split.
  - apply (@failed_move_changes_nothing HistoryEngine.engine
             "s2" {[ "uci" := PStr "e2" ]} games
             (KStr "default") (HGame ["e2e4"] ["s1"] "e2e4"));
      reflexivity.
  - apply (@failed_move_changes_nothing HistoryEngine.engine
             "s2" {[ "uci" := PStr "e2e4" ]} games
             (KStr "default") (HGame ["e2e4"] ["s1"] "e2e4")) with "e2e4";
      reflexivity.
Defined.

Lemma legal_move_is_applied_witness :
  on_make_move "s1" {[ "uci" := PStr "e2e4" ]}
    {[ KStr "default" := HGame [] ["s1"] "" ]} =
  Done ({[ KStr "default" := HGame ["e2e4"] ["s1"] "e2e4" ]},
        [Emit "move_made" [("uci", PStr "e2e4"); ("fen", PStr "e2e4")]
           (PStr "default")]).
Proof.
  rewrite (@legal_move_is_applied HistoryEngine.engine
             "s1" {[ "uci" := PStr "e2e4" ]}
             {[ KStr "default" := HGame [] ["s1"] "" ]}
             (KStr "default") (HGame [] ["s1"] "") "e2e4");
    reflexivity.
Defined.

Lemma reset_installs_fresh_room_witness :
  ∃ games',
    on_reset "s1" {[ "room" := PStr "r1" ]}
      {[ KStr "r1" := HGame ["e2e4"] ["s1"; "s2"] "e2e4" ]} =
      Done (games', [Emit "game_state" [("fen", PStr "")] (PStr "r1")]) ∧
    games' !! KStr "r1" = Some (HGame [] [] "") ∧
    (∀ k', k' ≠ KStr "r1" →
           games' !! k' =
           ({[ KStr "r1" := HGame ["e2e4"] ["s1"; "s2"] "e2e4" ]}
              : gmap pykey game) !! k').
Proof.
  exact (@reset_installs_fresh_room HistoryEngine.engine
           "s1" {[ "room" := PStr "r1" ]}
           {[ KStr "r1" := HGame ["e2e4"] ["s1"; "s2"] "e2e4" ]} (KStr "r1")
           eq_refl).
Defined.

Lemma unknown_room_move_refused_reset_creates_witness :
  on_make_move "s1" {[ "room" := PStr "r9"; "uci" := PStr "e2e4" ]} ∅ =
    Done (∅, [Emit "error" [("msg", PStr "game not found")] (PStr "s1")])
  ∧
  on_reset "s1" {[ "room" := PStr "r9"; "uci" := PStr "e2e4" ]} ∅ =
    Done (<[KStr "r9" := HGame [] [] ""]> ∅,
          [Emit "game_state" [("fen", PStr "")] (PStr "r9")]).
Proof.
  exact (@unknown_room_move_refused_reset_creates HistoryEngine.engine
           "s1" {[ "room" := PStr "r9"; "uci" := PStr "e2e4" ]} ∅ (KStr "r9")
           eq_refl eq_refl).
Defined.

(** C6 as stated fails for resets: on the empty [games], a
    reset creates the room and emits its state to the room's channel; it
    does not leave [games] alone, and it sends no [error] message. *)
Lemma reset_of_unknown_room_creates_it :
  on_reset "s1" ∅ ∅ =
    Done ({[ KStr "default" := HGame [] [] "" ]},
          [Emit "game_state" [("fen", PStr "")] (PStr "default")]) ∧
  ¬ (∀ sid data (games : gmap pykey game) k,
       py_hash (room_of data) = Done k → games !! k = None →
       ∃ notice,
         on_reset sid data games = Done (games, [Emit "error" notice (PStr sid)])).
Proof.
  split; [reflexivity|].
  intros Hclaim.
  destruct (Hclaim "s1" ∅ ∅ (KStr "default")) as [notice Heq];
    [reflexivity..|].
  cbv in Heq. discriminate Heq.
Qed.

Lemma unparsable_uci_is_caught_witness :
  let games : gmap pykey game := {[ KStr "default" := HGame [] ["s1"] "" ]} in
  on_make_move "s1" ∅ games =
    Done (games, [Emit "invalid_move" [("msg", PStr "invalid uci")] (PStr "s1")])
  ∧
  on_make_move "s1" {[ "uci" := PStr "e7e5e5" ]} games =
    Done (games, [Emit "invalid_move" [("msg", PStr "invalid uci")] (PStr "s1")]).
Proof.
  intros games. split.
  - apply (@unparsable_uci_is_caught HistoryEngine.engine
             "s1" ∅ games (KStr "default") (HGame [] ["s1"] ""));
      try reflexivity.
    intros s Hs. discriminate Hs.
  - apply (@unparsable_uci_is_caught HistoryEngine.engine
             "s1" {[ "uci" := PStr "e7e5e5" ]} games
             (KStr "default") (HGame [] ["s1"] ""));
      try reflexivity.
    intros s Hs. injection Hs as <-. reflexivity.
Defined.

Lemma join_is_idempotent_witness :
  ∃ (games1 : gmap pykey game) out,
    on_join_game "s1" {[ "room" := PStr "r1" ]} ∅ = Done (games1, out) ∧
    games1 = <[KStr "r1" := HGame [] ["s1"] ""]> ∅ ∧
    on_join_game "s1" {[ "room" := PStr "r1" ]} games1 = Done (games1, out).
Proof.
  destruct (proj1 (@join_is_idempotent HistoryEngine.engine)
              "s1" {[ "room" := PStr "r1" ]} ∅ (KStr "r1"))
    as (games1 & out & Hjoin & Hnew & _ & _ & Hagain); [reflexivity|].
  exists games1, out. split; [exact Hjoin|]. split; [|exact Hagain].
  apply Hnew. reflexivity.
Defined.

Lemma quiz_start_fifteen_or_error_witness :
  api_quiz_start (λ i, 7 * i) (replicate 10 (PStr "q")) =
    Done (Response 400
            (PDict [("error", PStr "Not enough questions in bank")]))
  ∧
  ∃ selected rest,
    api_quiz_start (λ i, 7 * i) (PInt <$> seqZ 1 20) =
      Done (Response 200 (PList selected)) ∧
    length selected = 15 ∧
    (selected ++ rest)%list ≡ₚ PInt <$> seqZ 1 20.
Proof.
  split.
  - apply (quiz_start_fifteen_or_error (λ i, 7 * i) (replicate 10 (PStr "q"))).
    vm_compute. lia.
  - apply (quiz_start_fifteen_or_error (λ i, 7 * i) (PInt <$> seqZ 1 20)).
    vm_compute. lia.
Defined.

Lemma falsy_room_is_default_witness :
  on_join_game "s1" {[ "room" := PInt 0 ]} ∅ =
    on_join_game "s1" (delete "room" (∅ : gmap string pyval)) ∅ ∧
  on_make_move "s1" {[ "room" := PInt 0 ]} ∅ =
    on_make_move "s1" (delete "room" (∅ : gmap string pyval)) ∅ ∧
  on_reset "s1" {[ "room" := PInt 0 ]} ∅ =
    on_reset "s1" (delete "room" (∅ : gmap string pyval)) ∅.
Proof.
  destruct (@falsy_room_is_default HistoryEngine.engine ∅)
    as (_ & _ & _ & _ & _ & Hsame).
  apply (Hsame (PInt 0) "s1" ∅). reflexivity.
Defined.

(** A joins [r1] and plays e2e4; B joins and sends a text that is no
    move. *)
Example scenario_r1 :
  run [JoinGame "A" {[ "room" := PStr "r1" ]};
       MakeMove "A" {[ "room" := PStr "r1"; "uci" := PStr "e2e4" ]};
       JoinGame "B" {[ "room" := PStr "r1" ]};
       MakeMove "B" {[ "room" := PStr "r1"; "uci" := PStr "e7e5e5" ]}]
  = {[ KStr "r1" := HGame ["e2e4"] ["A"; "B"] "e2e4" ]}.
Proof. reflexivity. Qed.


(** * Further properties at concrete inputs *)

Lemma step_touches_one_room_witness :
  step ({[ KStr "r1" := HGame ["e2e4"] ["A"] "e2e4" ]} : gmap pykey game)
       (ResetGame "B" {[ "room" := PStr "r2" ]}) !! KStr "r1" =
  ({[ KStr "r1" := HGame ["e2e4"] ["A"] "e2e4" ]} : gmap pykey game)
    !! KStr "r1".
Proof.
  apply (@step_touches_one_room HistoryEngine.engine).
  cbv. intros Heq. discriminate Heq.
Defined.

Lemma rooms_never_disappear_witness :
  is_Some (run ([JoinGame "A" ∅] ++ [ResetGame "B" ∅; MakeMove "B" ∅])
             !! KStr "default").
Proof.
  apply (@rooms_never_disappear HistoryEngine.engine).
  vm_compute. by eexists.
Defined.

Lemma players_have_joined_witness :
  ∃ data, JoinGame "A" data ∈ [JoinGame "A" ∅; JoinGame "B" ∅] ∧
          py_hash (room_of data) = Done (KStr "default").
Proof.
  apply (@players_have_joined HistoryEngine.engine
           [JoinGame "A" ∅; JoinGame "B" ∅] (KStr "default")
           (HGame [] ["A"; "B"] "") "A").
  - reflexivity.
  - simpl. apply list_elem_of_here.
Defined.

Lemma joiner_is_sent_current_position_witness :
  ∃ (games' : gmap pykey game) g,
    on_join_game "B" ∅
      (run [JoinGame "A" ∅; MakeMove "A" {[ "uci" := PStr "e2e4" ]}]) =
      Done (games',
            [JoinRoom "B" (room_of ∅);
             Emit "game_state" [("fen", PStr (board_fen (board g)))]
               (PStr "B")]) ∧
    games' !! KStr "default" = Some g ∧
    board g =
      default new_board
        (board <$> run [JoinGame "A" ∅;
                        MakeMove "A" {[ "uci" := PStr "e2e4" ]}]
                     !! KStr "default").
Proof.
  apply (@joiner_is_sent_current_position HistoryEngine.engine
           [JoinGame "A" ∅; MakeMove "A" {[ "uci" := PStr "e2e4" ]}]
           "B" ∅ (KStr "default")).
  reflexivity.
Defined.

Lemma move_keeps_rooms_and_players_witness :
  let games : gmap pykey game := {[ KStr "default" := HGame [] ["A"] "" ]} in
  let games' : gmap pykey game :=
    {[ KStr "default" := HGame ["e2e4"] ["A"] "e2e4" ]} in
  dom games' = dom games ∧
  ∀ k, players <$> games' !! k = players <$> games !! k.
Proof.
  intros games games'.
  apply (@move_keeps_rooms_and_players HistoryEngine.engine
           "B" {[ "uci" := PStr "e2e4" ]} games games'
           [Emit "move_made" [("uci", PStr "e2e4"); ("fen", PStr "e2e4")]
              (PStr "default")]).
  reflexivity.
Defined.

Lemma join_keeps_positions_witness :
  ∃ g', ({[ KStr "default" := HGame ["e2e4"] ["A"; "B"] "e2e4" ]}
           : gmap pykey game) !! KStr "default" = Some g' ∧
        board g' = board (HGame ["e2e4"] ["A"] "e2e4") ∧
        fen g' = fen (HGame ["e2e4"] ["A"] "e2e4") ∧
        players (HGame ["e2e4"] ["A"] "e2e4") ⊆ players g'.
Proof.
  apply (@join_keeps_positions HistoryEngine.engine
           "B" ∅ {[ KStr "default" := HGame ["e2e4"] ["A"] "e2e4" ]}
           {[ KStr "default" := HGame ["e2e4"] ["A"; "B"] "e2e4" ]}
           [JoinRoom "B" (PStr "default");
            Emit "game_state" [("fen", PStr "e2e4")] (PStr "B")]);
    reflexivity.
Defined.

Lemma quiz_has_no_repeats_witness :
  ∃ selected,
    api_quiz_start (λ i, 7 * i) (PInt <$> seqZ 1 20) =
      Done (Response 200 (PList selected)) ∧
    NoDup selected ∧ selected ⊆ PInt <$> seqZ 1 20.
Proof.
  apply (quiz_has_no_repeats (λ i, 7 * i) (PInt <$> seqZ 1 20)).
  - apply NoDup_fmap_2; [|apply NoDup_seqZ]. by intros x y [= ->].
  - vm_compute. lia.
Defined.

Lemma quiz_of_fifteen_is_whole_bank_witness :
  ∃ selected,
    api_quiz_start (λ i, 7 * i) (PInt <$> seqZ 1 15) =
      Done (Response 200 (PList selected)) ∧
    selected ≡ₚ PInt <$> seqZ 1 15.
Proof.
  apply (quiz_of_fifteen_is_whole_bank (λ i, 7 * i) (PInt <$> seqZ 1 15)).
  reflexivity.
Defined.


Lemma submit_defaults_witness :
  (∃ r, [Row 1 "Anonymous" 0 0 "2024-01-01 10:00:00"] = ([] ++ [r])%list ∧
        ((∅ : gmap string pyval) !! "name" = None → name r = "Anonymous") ∧
        ((∅ : gmap string pyval) !! "score" = None → score r = 0%Z) ∧
        ((∅ : gmap string pyval) !! "total" = None → total r = 0%Z)) ∧
  ∃ e, api_quiz_submit (λ _, Raise ValueError) "2024-01-01 10:00:00"
         {[ "name" := PNone; "score" := PInt 3 ]} [] = Raise e.
Proof.
  split.
  - apply (proj1 (submit_defaults (λ _, Raise ValueError)
                    "2024-01-01 10:00:00" ∅ []) _
             (Response 200 (PDict [("status", PStr "ok")]))).
    reflexivity.
  - apply (proj2 (submit_defaults (λ _, Raise ValueError)
                    "2024-01-01 10:00:00"
                    {[ "name" := PNone; "score" := PInt 3 ]} [])).
    reflexivity.
Defined.

Lemma leaderboard_shows_all_up_to_fifty_witness :
  leaderboard_rows [Row 1 "A" 10 15 "2024-01-01 10:00:00";
                    Row 2 "B" 12 15 "2024-01-01 10:05:00"] ≡ₚ
    [Row 1 "A" 10 15 "2024-01-01 10:00:00";
     Row 2 "B" 12 15 "2024-01-01 10:05:00"].
Proof.
  apply leaderboard_shows_all_up_to_fifty. simpl. lia.
Defined.

Lemma leaderboard_head_has_top_score_witness :
  (score (Row 1 "A" 10 15 "2024-01-01 10:00:00") ≤
   score (Row 2 "B" 12 15 "2024-01-01 10:05:00"))%Z.
Proof.
  apply (leaderboard_head_has_top_score
           [Row 1 "A" 10 15 "2024-01-01 10:00:00";
            Row 2 "B" 12 15 "2024-01-01 10:05:00"]
           (Row 2 "B" 12 15 "2024-01-01 10:05:00")
           [Row 1 "A" 10 15 "2024-01-01 10:00:00"]).
  - vm_compute. reflexivity.
  - apply list_elem_of_here.
Defined.

Lemma leaderboard_ignores_storage_order_witness :
  leaderboard_rows [Row 1 "A" 10 15 "2024-01-01 10:00:00";
                    Row 2 "B" 12 15 "2024-01-01 10:05:00"] =
  leaderboard_rows [Row 2 "B" 12 15 "2024-01-01 10:05:00";
                    Row 1 "A" 10 15 "2024-01-01 10:00:00"].
Proof.
  apply leaderboard_ignores_storage_order.
  - apply perm_swap.
  - intros r1 r2 H1 H2 Hs Ht.
    apply list_elem_of_In in H1, H2. simpl in H1, H2.
    destruct H1 as [<-|[<-|[]]], H2 as [<-|[<-|[]]];
      first [reflexivity | discriminate Hs].
Defined.

Lemma new_row_is_listed_witness :
  ∃ r, r ∈ leaderboard_rows [Row 1 "A" 10 15 "2024-01-01 10:00:00"] ∧
       rowid r = (Z.of_nat (length ([] : list row)) + 1)%Z ∧
       timestamp r = "2024-01-01 10:00:00".
Proof.
  apply (new_row_is_listed (λ _, Raise ValueError) "2024-01-01 10:00:00"
           (submission "A" 10 15) []
           [Row 1 "A" 10 15 "2024-01-01 10:00:00"]
           (Response 200 (PDict [("status", PStr "ok")]))).
  - reflexivity.
  - simpl. lia.
Defined.

Lemma api_writer_found_is_listed_witness :
  ∃ epoch lst w,
    PDict [("id", PInt 1); ("name", PStr "Pushkin")] = PDict w ∧
    (epoch, lst) ∈ [("golden_age", [[("id", PInt 1); ("name", PStr "Pushkin")]]);
                    ("silver_age", [[("id", PStr "2"); ("name", PStr "Blok")]])] ∧
    w ∈ lst ∧ py_str (λ _, "") (dict_get w "id") = "1".
Proof.
  apply (api_writer_found_is_listed (λ _, "")
           [("golden_age", [[("id", PInt 1); ("name", PStr "Pushkin")]]);
            ("silver_age", [[("id", PStr "2"); ("name", PStr "Blok")]])]
           "1").
  reflexivity.
Defined.

Lemma api_writer_404_iff_no_match_witness :
  api_writer (λ _, "")
    [("golden_age", [[("id", PInt 1); ("name", PStr "Pushkin")]]);
     ("silver_age", [[("id", PStr "2"); ("name", PStr "Blok")]])] "3" =
  Response 404 (PDict [("error", PStr "not found")]).
Proof.
  apply (api_writer_404_iff_no_match (λ _, "")
           [("golden_age", [[("id", PInt 1); ("name", PStr "Pushkin")]]);
            ("silver_age", [[("id", PStr "2"); ("name", PStr "Blok")]])]
           "3").
  intros epoch lst w He Hw.
  apply list_elem_of_In in He. simpl in He.
  destruct He as [[= <- <-]|[[= <- <-]|[]]];
    apply list_elem_of_In in Hw; simpl in Hw;
    destruct Hw as [<-|[]]; vm_compute; intros Heq; discriminate Heq.
Defined.

